(** * Resource servers endpoints of the management API client

    A shallow embedding of [auth0/management/resource_servers.py]: the class
    [ResourceServers], its constructor, the private helper [_url] and the
    five endpoint methods [create], [get_all], [get], [delete], [update].

    The methods are written in a small state-and-exception monad.  The state
    holds the Python object store (the [ResourceServers] instances, by
    reference), the state of the outside world that the REST client talks to,
    and the list of requests handed to the REST client so far.  The REST
    client itself ([auth0/rest.py]) is a collaborator: it is taken as a
    parameter, a record of its constructor and of its request method. *)

From Stdlib Require Import ZArith String Ascii List Lia.
From stdpp Require Import base option list gmap strings.

Set Default Proof Using "Type".
Local Open Scope string_scope.
Local Open Scope list_scope.

(** ** Python values *)

(** The values that travel through this module: [None], booleans, integers,
    strings, lists and dictionaries.  A dictionary is kept as the list of its
    items in insertion order, as Python keeps it. *)
#[warnings="-register-all"]
Inductive pyval : Type :=
| VNone
| VBool (b : bool)
| VInt (n : Z)
| VStr (s : string)
| VList (items : list pyval)
| VDict (items : list (string * pyval)).

(** [str(b)] for a boolean [b]. *)
Definition py_str_bool (b : bool) : string :=
  if b then "True" else "False".

(** [str.lower] on one character of the ASCII range. *)
Definition lower_ascii (c : ascii) : ascii :=
  let n := nat_of_ascii c in
  if Nat.leb 65 n && Nat.leb n 90 then ascii_of_nat (n + 32) else c.

(** [str.lower]. *)
Fixpoint lower (s : string) : string :=
  match s with
  | EmptyString => EmptyString
  | String c s' => String (lower_ascii c) (lower s')
  end.

(** An argument of type [int | None] as a Python value. *)
Definition py_opt_int (o : option Z) : pyval :=
  match o with
  | Some n => VInt n
  | None => VNone
  end.

(** ** Requests handed to the REST client *)

Inductive verb : Type := GET | POST | DELETE | PATCH.

(** One call of a verb method of the REST client: the positional [url] and
    the keyword arguments [params] and [data]; [None] stands for a keyword
    that the call does not pass. *)
Record request : Type := Request {
  req_verb : verb;
  req_url : string;
  req_params : option pyval;
  req_data : option pyval
}.

(** What a call into the REST client does: it returns a value or it raises. *)
Inductive reply (Exn A : Type) : Type :=
| Returns (a : A)
| Raises (e : Exn).
Arguments Returns {Exn A} a.
Arguments Raises {Exn A} e.

(** The REST client class, as this module uses it: its constructor
    [RestClient(jwt=, telemetry=, timeout=, options=)] and its verb methods,
    all of which act on the outside world.  [Client] is the type of REST
    client objects, [Exn] of the exceptions it raises. *)
Record RestClient (Client Exn World TimeoutType RestClientOptions : Type) : Type := {
  rest_init :
    string -> bool -> TimeoutType -> option RestClientOptions ->
    World -> reply Exn Client * World;
  rest_request :
    Client -> request -> World -> reply Exn pyval * World
}.
Arguments rest_init {Client Exn World TimeoutType RestClientOptions} _ _ _ _ _ _.
Arguments rest_request {Client Exn World TimeoutType RestClientOptions} _ _ _ _.

(** ** Instances and the object store *)

(** The attributes of a [ResourceServers] object. *)
Record ResourceServers (Client : Type) : Type := {
  domain : string;
  protocol : string;
  client : Client
}.
Arguments domain {Client} _.
Arguments protocol {Client} _.
Arguments client {Client} _.

(** References to [ResourceServers] objects. *)
Abbreviation loc := positive.

Record state (Client World : Type) : Type := State {
  heap : gmap loc (ResourceServers Client);
  world : World;
  trace : list (Client * request)
}.
Arguments State {Client World} _ _ _.
Arguments heap {Client World} _.
Arguments world {Client World} _.
Arguments trace {Client World} _.

(** The result of running a method: a returned value, a raised exception, or
    [Dangling] when [self] is not a reference to a [ResourceServers] object
    (which a reference obtained from the constructor never is). *)
Inductive outcome (Exn A : Type) : Type :=
| Ok (a : A)
| Raised (e : Exn)
| Dangling.
Arguments Ok {Exn A} a.
Arguments Raised {Exn A} e.
Arguments Dangling {Exn A}.

Definition of_reply {Exn A} (r : reply Exn A) : outcome Exn A :=
  match r with
  | Returns a => Ok a
  | Raises e => Raised e
  end.

(** The calls a caller can make on an instance. *)
Inductive opcall : Type :=
| CallCreate (body : pyval)
| CallGetAll (page per_page : option Z) (include_totals : bool)
| CallGet (id : string)
| CallDelete (id : string)
| CallUpdate (id : string) (body : pyval).

(** What a caller can do: construct an instance, or call a method of one. *)
Inductive action (TimeoutType RestClientOptions : Type) : Type :=
| New (domain token : string) (telemetry : bool) (timeout : TimeoutType)
      (protocol : string) (rest_options : option RestClientOptions)
| Invoke (self : loc) (c : opcall).
Arguments New {TimeoutType RestClientOptions} _ _ _ _ _ _.
Arguments Invoke {TimeoutType RestClientOptions} _ _.

(** The defaults of the optional parameters. *)
Definition default_telemetry : bool := true.
Definition default_protocol : string := "https".
Definition default_page : option Z := None.
Definition default_per_page : option Z := None.
Definition default_include_totals : bool := false.

Declare Scope py_scope.
Delimit Scope py_scope with py.

Section Methods.
Context {Client Exn World TimeoutType RestClientOptions : Type}.
Variable R : RestClient Client Exn World TimeoutType RestClientOptions.

(** *** The monad *)

Definition M (A : Type) : Type :=
  state Client World -> outcome Exn A * state Client World.

Definition ret {A} (a : A) : M A := fun st => (Ok a, st).

(** Sequencing: an exception of the first computation ends the whole. *)
Definition bind {A B} (m : M A) (k : A -> M B) : M B :=
  fun st =>
    match m st with
    | (Ok a, st') => k a st'
    | (Raised e, st') => (Raised e, st')
    | (Dangling, st') => (Dangling, st')
    end.

Notation "x <- m ;; k" := (bind m (fun x => k))
  (at level 100, m at next level, right associativity) : py_scope.
Local Open Scope py_scope.

(** Attribute read [self.f]. *)
Definition getattr {A} (self : loc) (f : ResourceServers Client -> A) : M A :=
  fun st =>
    match heap st !! self with
    | Some o => (Ok (f o), st)
    | None => (Dangling, st)
    end.

(** Creation of a new object with the given attributes. *)
Definition alloc (o : ResourceServers Client) : M loc :=
  fun st =>
    let l := fresh (dom (heap st)) in
    (Ok l, State (<[l := o]> (heap st)) (world st) (trace st)).

(** [RestClient(jwt=token, telemetry=telemetry, timeout=timeout,
    options=rest_options)]. *)
Definition new_client (token : string) (telemetry : bool)
    (timeout : TimeoutType) (rest_options : option RestClientOptions)
    : M Client :=
  fun st =>
    let '(r, w) := rest_init R token telemetry timeout rest_options (world st) in
    (of_reply r, State (heap st) w (trace st)).

(** A call of a verb method of the REST client [c]. *)
Definition send (c : Client) (r : request) : M pyval :=
  fun st =>
    let '(a, w) := rest_request R c r (world st) in
    (of_reply a, State (heap st) w (trace st ++ [(c, r)])).

(** The calls this module makes of the verb methods of the REST client:
    [c.get(url, params=...)] and [c.get(url)], [c.post(url, data=...)],
    [c.delete(url)] and [c.patch(url, data=...)]. *)
Definition client_get (c : Client) (url : string) (params : option pyval) : M pyval :=
  send c (Request GET url params None).
Definition client_post (c : Client) (url : string) (data : option pyval) : M pyval :=
  send c (Request POST url None data).
Definition client_delete (c : Client) (url : string) : M pyval :=
  send c (Request DELETE url None None).
Definition client_patch (c : Client) (url : string) (data : option pyval) : M pyval :=
  send c (Request PATCH url None data).

(** *** The class *)

(** [__init__]: the attributes [domain], [protocol] and [client] of the new
    object.  The object is entered in the store when all three are set;
    if the REST client's constructor raises, no reference to it exists. *)
Definition __init__ (domain token : string) (telemetry : bool)
    (timeout : TimeoutType) (protocol : string)
    (rest_options : option RestClientOptions) : M loc :=
  c <- new_client token telemetry timeout rest_options ;;
  alloc {| domain := domain; protocol := protocol; client := c |}.

Definition _url (self : loc) (id : option string) : M string :=
  p <- getattr self protocol ;;
  d <- getattr self domain ;;
  let url := p +:+ "://" +:+ d +:+ "/api/v2/resource-servers" in
  match id with
  | Some i => ret (url +:+ "/" +:+ i)
  | None => ret url
  end.

Definition create (self : loc) (body : pyval) : M pyval :=
  c <- getattr self client ;;
  u <- _url self None ;;
  client_post c u (Some body).

Definition get_all (self : loc) (page per_page : option Z)
    (include_totals : bool) : M pyval :=
  let params :=
    VDict [ ("page", py_opt_int page);
            ("per_page", py_opt_int per_page);
            ("include_totals", VStr (lower (py_str_bool include_totals))) ] in
  c <- getattr self client ;;
  u <- _url self None ;;
  client_get c u (Some params).

Definition get (self : loc) (id : string) : M pyval :=
  c <- getattr self client ;;
  u <- _url self (Some id) ;;
  client_get c u None.

Definition delete (self : loc) (id : string) : M pyval :=
  c <- getattr self client ;;
  u <- _url self (Some id) ;;
  client_delete c u.

Definition update (self : loc) (id : string) (body : pyval) : M pyval :=
  c <- getattr self client ;;
  u <- _url self (Some id) ;;
  client_patch c u (Some body).

(** *** Callers *)

(** One call on the instance [self]. *)
Definition run_op (self : loc) (c : opcall) : M pyval :=
  match c with
  | CallCreate body => create self body
  | CallGetAll page per_page include_totals =>
      get_all self page per_page include_totals
  | CallGet id => get self id
  | CallDelete id => delete self id
  | CallUpdate id body => update self id body
  end.

(** A caller that makes the calls of a list one after the other, on any
    instances, and goes on after a call that raised. *)
Fixpoint run_calls (cs : list (loc * opcall)) (st : state Client World)
    : state Client World :=
  match cs with
  | [] => st
  | (self, c) :: cs' => run_calls cs' (snd (run_op self c st))
  end.

(** The requests that a computation started in [st] hands to the REST
    client, in order, each with the client object it is handed to. *)
Definition requests_of {A} (m : M A) (st : state Client World)
    : list (Client * request) :=
  drop (length (trace st)) (trace (snd (m st))).

(** A caller that also constructs new instances on the way. *)
Definition run_action (a : action TimeoutType RestClientOptions)
    (st : state Client World) : state Client World :=
  match a with
  | New domain token telemetry timeout protocol rest_options =>
      snd (__init__ domain token telemetry timeout protocol rest_options st)
  | Invoke self c => snd (run_op self c st)
  end.

Fixpoint run_actions (acts : list (action TimeoutType RestClientOptions))
    (st : state Client World) : state Client World :=
  match acts with
  | [] => st
  | a :: acts' => run_actions acts' (run_action a st)
  end.

End Methods.

(** ** The URLs and requests of the interface description *)

(** The URL of the collection and the URL of one resource server. *)
Definition collection_url (p d : string) : string :=
  p +:+ "://" +:+ d +:+ "/api/v2/resource-servers".

Definition item_url (p d id : string) : string :=
  p +:+ "://" +:+ d +:+ "/api/v2/resource-servers/" +:+ id.

(** The request that the table of operations gives for each call. *)
Definition table_request (p d : string) (c : opcall) : request :=
  match c with
  | CallCreate body =>
      Request POST (collection_url p d) None (Some body)
  | CallGetAll page per_page include_totals =>
      Request GET (collection_url p d)
        (Some (VDict [ ("page", py_opt_int page);
                       ("per_page", py_opt_int per_page);
                       ("include_totals",
                        VStr (if include_totals then "true" else "false")) ]))
        None
  | CallGet id => Request GET (item_url p d id) None None
  | CallDelete id => Request DELETE (item_url p d id) None None
  | CallUpdate id body => Request PATCH (item_url p d id) None (Some body)
  end.

(** The URL of a call. *)
Definition call_url (p d : string) (c : opcall) : string :=
  match c with
  | CallCreate _ | CallGetAll _ _ _ => collection_url p d
  | CallGet id | CallDelete id | CallUpdate id _ => item_url p d id
  end.

(** Number of occurrences of the character [c] in a string. *)
Fixpoint count_char (c : ascii) (s : string) : nat :=
  match s with
  | EmptyString => 0
  | String a s' => (if Ascii.eqb a c then 1 else 0) + count_char c s'
  end.

(** ** Callers of the constructor and of several calls *)

(** The call [ResourceServers(domain, token, ...)] with each optional
    argument given or left out; a left-out argument takes the default of the
    signature of [__init__].  [default_timeout] stands for the [5.0] of the
    signature; [rest_options] is [None] when left out. *)
Definition new_ResourceServers
    {Client Exn World TimeoutType RestClientOptions : Type}
    (R : RestClient Client Exn World TimeoutType RestClientOptions)
    (default_timeout : TimeoutType) (domain token : string)
    (telemetry : option bool) (timeout : option TimeoutType)
    (protocol : option string) (rest_options : option RestClientOptions)
    : state Client World -> outcome Exn loc * state Client World :=
  __init__ R domain token
    (default default_telemetry telemetry)
    (default default_timeout timeout)
    (default default_protocol protocol)
    rest_options.

(** The requests that the calls [cs] make, read off the store [st] in which
    the first of them starts: one request for each call on an instance. *)
Definition planned_requests {Client World : Type} (st : state Client World)
    (cs : list (loc * opcall)) : list (Client * request) :=
  flat_map
    (fun sc =>
       match heap st !! fst sc with
       | Some o => [(client o, table_request (protocol o) (domain o) (snd sc))]
       | None => []
       end)
    cs.

(** The world after the REST client has served the requests [reqs], one
    after the other, whatever it replied to each. *)
Definition serve {Client Exn World TimeoutType RestClientOptions : Type}
    (R : RestClient Client Exn World TimeoutType RestClientOptions)
    (reqs : list (Client * request)) (w : World) : World :=
  fold_left (fun w' cr => snd (rest_request R (fst cr) (snd cr) w')) reqs w.

(** ** A REST client for examples *)

(** A stand-in for the REST client, of the kind the unit tests patch in: a
    client object is its token, the world is the number of requests served,
    an exception is an HTTP status.  A GET of a URL that ends in
    [/missing-id] raises 404; every other request returns its payload, or
    [None] when it has none. *)
Fixpoint ends_with (suffix s : string) : bool :=
  String.eqb s suffix ||
  match s with
  | EmptyString => false
  | String _ s' => ends_with suffix s'
  end.

Definition mock_rest : RestClient string nat nat unit unit := {|
  rest_init := fun jwt _ _ _ w => (Returns jwt, w);
  rest_request := fun _ r w =>
    match req_verb r with
    | GET =>
        if ends_with "/missing-id" (req_url r) then (Raises 404, S w)
        else (Returns (default VNone (req_data r)), S w)
    | _ => (Returns (default VNone (req_data r)), S w)
    end
|}.

Definition mock_empty : state string nat := State ∅ 0 [].

(** The state after [ResourceServers("tenant.example.com", "tok")]. *)
Definition mock_one : state string nat :=
  snd (__init__ mock_rest "tenant.example.com" "tok" default_telemetry tt
         default_protocol None mock_empty).

Definition mock_instance : ResourceServers string :=
  {| domain := "tenant.example.com"; protocol := "https"; client := "tok" |}.

(** Then, after a [get_all()] on the first instance, a second instance for
    another domain. *)
Definition mock_listed : state string nat :=
  run_actions mock_rest
    [Invoke 1%positive
       (CallGetAll default_page default_per_page default_include_totals)]
    mock_one.

Definition mock_two : state string nat :=
  snd (__init__ mock_rest "other.example.com" "tok2" default_telemetry tt
         default_protocol None mock_listed).

(** Or, after the first instance, one that differs in the protocol. *)
Definition mock_http : state string nat :=
  snd (__init__ mock_rest "tenant.example.com" "tok" default_telemetry tt
         "http" None mock_one).

(** A REST client whose every request fails with status 503. *)
Definition mock_down : RestClient string nat nat unit unit := {|
  rest_init := fun jwt _ _ _ w => (Returns jwt, w);
  rest_request := fun _ _ w => (Raises 503, S w)
|}.

Definition mock_down_two : state string nat :=
  snd (__init__ mock_down "tenant.example.com" "tok" default_telemetry tt
         default_protocol None mock_one).

(** Or, after the first instance, one for the same domain with another
    token and telemetry off. *)
Definition mock_second_token : state string nat :=
  snd (__init__ mock_rest "tenant.example.com" "tok-b" false tt
         default_protocol None mock_one).

(** ** Strings *)

Lemma append_cons (x : ascii) (a b : string) :
  String x a +:+ b = String x (a +:+ b).
Proof. reflexivity. Qed.

Lemma append_assoc (a b c : string) : (a +:+ b) +:+ c = a +:+ b +:+ c.
Proof.
  induction a as [|x a IH]; [reflexivity|].
  rewrite !append_cons. now f_equal.
Qed.

Lemma length_append (a b : string) :
  String.length (a +:+ b) = String.length a + String.length b.
Proof.
  induction a as [|x a IH]; [reflexivity|].
  rewrite append_cons. simpl. now rewrite IH.
Qed.

(** Two strings that agree after the same suffix is added are equal. *)
Lemma append_cancel_r (t a b : string) : a +:+ t = b +:+ t -> a = b.
Proof.
  revert b. induction a as [|x a IH]; intros [|y b] H.
  - reflexivity.
  - apply (f_equal String.length) in H.
    rewrite !length_append in H. simpl in H. lia.
  - apply (f_equal String.length) in H.
    rewrite !length_append in H. simpl in H. lia.
  - rewrite !append_cons in H. injection H as -> H.
    f_equal. now apply IH.
Qed.

Lemma append_cancel_l (t a b : string) : t +:+ a = t +:+ b -> a = b.
Proof.
  induction t as [|x t IH]; intros H; [assumption|].
  rewrite !append_cons in H. injection H as H. now apply IH.
Qed.

Lemma count_char_append (c : ascii) (a b : string) :
  count_char c (a +:+ b) = count_char c a + count_char c b.
Proof.
  induction a as [|x a IH]; [reflexivity|].
  rewrite append_cons. simpl. rewrite IH. lia.
Qed.

Lemma item_url_collection (p d id : string) :
  item_url p d id = collection_url p d +:+ "/" +:+ id.
Proof.
  unfold item_url, collection_url.
  now rewrite !append_assoc.
Qed.

Lemma lower_str_bool (b : bool) :
  lower (py_str_bool b) = if b then "true" else "false".
Proof. now destruct b. Qed.

(** ** One call *)

Section Calls.
Context {Client Exn World TimeoutType RestClientOptions : Type}.
Variable R : RestClient Client Exn World TimeoutType RestClientOptions.

Implicit Types (st : state Client World) (o : ResourceServers Client)
  (self : loc) (c : opcall).

Lemma getattr_found {A} st self o (f : ResourceServers Client -> A) :
  heap st !! self = Some o ->
  getattr (Exn := Exn) self f st = (Ok (f o), st).
Proof. intros H. unfold getattr. now rewrite H. Qed.

Lemma getattr_dangling {A} st self (f : ResourceServers Client -> A) :
  heap st !! self = None -> getattr (Exn := Exn) self f st = (Dangling, st).
Proof. intros H. unfold getattr. now rewrite H. Qed.

Lemma _url_found st self o (id : option string) :
  heap st !! self = Some o ->
  _url (Exn := Exn) self id st =
    (Ok (match id with
         | Some i => collection_url (protocol o) (domain o) +:+ "/" +:+ i
         | None => collection_url (protocol o) (domain o)
         end), st).
Proof.
  intros H. unfold _url, bind.
  rewrite !(getattr_found _ _ _ _ H).
  now destruct id.
Qed.

(** Every method is one call of the REST client, with the request of the
    table. *)
Lemma run_op_send st self o c :
  heap st !! self = Some o ->
  run_op R self c st =
    send R (client o) (table_request (protocol o) (domain o) c) st.
Proof.
  intros H.
  destruct c; simpl;
    unfold create, get_all, get, delete, update, bind;
    rewrite (getattr_found _ _ _ _ H), (_url_found _ _ _ _ H);
    unfold client_post, client_get, client_delete, client_patch;
    rewrite <- ?item_url_collection, ?lower_str_bool; reflexivity.
Qed.

Lemma run_op_dangling st self c :
  heap st !! self = None -> run_op R self c st = (Dangling, st).
Proof.
  intros H.
  destruct c; simpl;
    unfold create, get_all, get, delete, update, bind;
    now rewrite (getattr_dangling _ _ _ H).
Qed.

Lemma send_heap st (cl : Client) (r : request) :
  heap (snd (send R cl r st)) = heap st.
Proof. unfold send. now destruct (rest_request R cl r (world st)). Qed.

Lemma send_trace st (cl : Client) (r : request) :
  trace (snd (send R cl r st)) = trace st ++ [(cl, r)].
Proof. unfold send. now destruct (rest_request R cl r (world st)). Qed.

Lemma run_op_heap st self c : heap (snd (run_op R self c st)) = heap st.
Proof.
  destruct (heap st !! self) as [o|] eqn:H.
  - rewrite (run_op_send _ _ _ _ H). apply send_heap.
  - now rewrite (run_op_dangling _ _ _ H).
Qed.

Lemma run_calls_heap (cs : list (loc * opcall)) st :
  heap (run_calls R cs st) = heap st.
Proof.
  revert st. induction cs as [|[self c] cs IH]; intros st; simpl.
  - reflexivity.
  - rewrite IH. apply run_op_heap.
Qed.

Lemma requests_of_send st (cl : Client) (r : request) :
  requests_of (send R cl r) st = [(cl, r)].
Proof.
  unfold requests_of. rewrite send_trace.
  now rewrite drop_app_length.
Qed.

Lemma requests_of_run_op st self o c :
  heap st !! self = Some o ->
  requests_of (run_op R self c) st =
    [(client o, table_request (protocol o) (domain o) c)].
Proof.
  intros H. unfold requests_of.
  rewrite (run_op_send _ _ _ _ H). apply requests_of_send.
Qed.

Lemma requests_of_dangling st self c :
  heap st !! self = None -> requests_of (run_op R self c) st = [].
Proof.
  intros H. unfold requests_of.
  rewrite (run_op_dangling _ _ _ H). simpl. now rewrite drop_all.
Qed.

Lemma table_request_url (p d : string) c :
  req_url (table_request p d c) = call_url p d c.
Proof. now destruct c. Qed.

(** *** Construction *)

Lemma init_inv (d tok : string) (tel : bool) (to : TimeoutType)
    (p : string) (ro : option RestClientOptions) st self st' :
  __init__ R d tok tel to p ro st = (Ok self, st') ->
  exists cl w,
    rest_init R tok tel to ro (world st) = (Returns cl, w) /\
    heap st !! self = None /\
    st' = State (<[self := {| domain := d; protocol := p; client := cl |}]>
                   (heap st)) w (trace st).
Proof.
  unfold __init__, bind, new_client, alloc.
  destruct (rest_init R tok tel to ro (world st)) as [[cl|e] w]; simpl;
    intros H; [|discriminate].
  injection H as <- <-.
  exists cl, w. split; [reflexivity|]. split; [|reflexivity].
  apply not_elem_of_dom, is_fresh.
Qed.

Lemma init_lookup (d tok : string) (tel : bool) (to : TimeoutType)
    (p : string) (ro : option RestClientOptions) st self st' :
  __init__ R d tok tel to p ro st = (Ok self, st') ->
  exists cl,
    heap st' !! self = Some {| domain := d; protocol := p; client := cl |}.
Proof.
  intros (cl & w & _ & _ & ->)%init_inv.
  exists cl. simpl. apply lookup_insert_eq.
Qed.

(** Construction leaves the objects that exist as they are. *)
Lemma init_preserves (d tok : string) (tel : bool) (to : TimeoutType)
    (p : string) (ro : option RestClientOptions) st l o :
  heap st !! l = Some o ->
  heap (snd (__init__ R d tok tel to p ro st)) !! l = Some o.
Proof.
  intros H.
  destruct (__init__ R d tok tel to p ro st) as [[self| |] st'] eqn:E.
  - apply init_inv in E as (cl & w & _ & Hfresh & ->). simpl.
    rewrite lookup_insert_ne; [assumption|].
    intros ->. congruence.
  - unfold __init__, bind, new_client in E.
    destruct (rest_init R tok tel to ro (world st)) as [[cl|e'] w];
      simpl in E; [discriminate|].
    injection E as _ <-. assumption.
  - unfold __init__, bind, new_client in E.
    destruct (rest_init R tok tel to ro (world st)) as [[cl|e'] w];
      simpl in E; discriminate.
Qed.

Lemma run_action_preserves (a : action TimeoutType RestClientOptions)
    st l o :
  heap st !! l = Some o -> heap (run_action R a st) !! l = Some o.
Proof.
  intros H. destruct a as [d tok tel to p ro|self c]; simpl.
  - now apply init_preserves.
  - now rewrite run_op_heap.
Qed.

Lemma run_actions_preserves
    (acts : list (action TimeoutType RestClientOptions)) st l o :
  heap st !! l = Some o -> heap (run_actions R acts st) !! l = Some o.
Proof.
  revert st. induction acts as [|a acts IH]; intros st H; simpl.
  - assumption.
  - apply IH. now apply run_action_preserves.
Qed.

End Calls.


(** ** What the methods send and return *)

Section Claims.
Context {Client Exn World TimeoutType RestClientOptions : Type}.
Variable R : RestClient Client Exn World TimeoutType RestClientOptions.

Implicit Types (st : state Client World) (o : ResourceServers Client)
  (self : loc) (c : opcall).

Lemma send_result st (cl : Client) (r : request) :
  fst (send R cl r st) = of_reply (fst (rest_request R cl r (world st))).
Proof. unfold send. now destruct (rest_request R cl r (world st)). Qed.

Lemma send_world st (cl : Client) (r : request) :
  world (snd (send R cl r st)) = snd (rest_request R cl r (world st)).
Proof. unfold send. now destruct (rest_request R cl r (world st)). Qed.

Lemma send_raises st (cl : Client) (r : request) (e : Exn) (w : World) :
  rest_request R cl r (world st) = (Raises e, w) ->
  send R cl r st = (Raised e, State (heap st) w (trace st ++ [(cl, r)])).
Proof. intros H. unfold send. now rewrite H. Qed.

(** An instance keeps the attributes of its construction through whatever
    the caller does afterwards. *)
Lemma constructed_lookup (d tok : string) (tel : bool) (to : TimeoutType)
    (p : string) (ro : option RestClientOptions) st0 self st1
    (acts : list (action TimeoutType RestClientOptions)) :
  __init__ R d tok tel to p ro st0 = (Ok self, st1) ->
  exists cl,
    heap st1 !! self = Some {| domain := d; protocol := p; client := cl |} /\
    heap (run_actions R acts st1) !! self =
      Some {| domain := d; protocol := p; client := cl |}.
Proof.
  intros [cl H]%init_lookup. exists cl. split; [assumption|].
  now apply run_actions_preserves.
Qed.

(** C1: for an instance constructed with protocol [p] and domain [d], at any
    later moment, each call hands the REST client exactly one request; its
    URL is [p://d/api/v2/resource-servers] for [create] and [get_all], and
    [p://d/api/v2/resource-servers/id] for [get], [delete] and [update]. *)
Theorem C1_url_of_every_call (d tok : string) (tel : bool) (to : TimeoutType)
    (p : string) (ro : option RestClientOptions) st0 self st1 :
  __init__ R d tok tel to p ro st0 = (Ok self, st1) ->
  forall (acts : list (action TimeoutType RestClientOptions)) c,
  exists cl r,
    requests_of (run_op R self c) (run_actions R acts st1) = [(cl, r)] /\
    req_url r =
      match c with
      | CallCreate _ | CallGetAll _ _ _ =>
          p +:+ "://" +:+ d +:+ "/api/v2/resource-servers"
      | CallGet id | CallDelete id | CallUpdate id _ =>
          p +:+ "://" +:+ d +:+ "/api/v2/resource-servers/" +:+ id
      end.
Proof.
  intros Hinit acts c.
  destruct (constructed_lookup _ _ _ _ _ _ _ _ _ acts Hinit) as (cl & _ & H).
  exists cl, (table_request p d c). split.
  - now rewrite (requests_of_run_op _ _ _ _ _ H).
  - now destruct c.
Qed.

(** C2: [get_all] hands the REST client one GET whose [params] are exactly
    the three items [page], [per_page] and [include_totals], in this order:
    [page] and [per_page] as given ([None] when absent), [include_totals] as
    the string ["true"] or ["false"].  In particular [get_all()] sends
    [None], [None], ["false"], and [get_all(2, 10, True)] sends [2], [10],
    ["true"]. *)
Theorem C2_get_all_params st self o (page per_page : option Z)
    (include_totals : bool) :
  heap st !! self = Some o ->
  (exists url,
     requests_of (get_all R self page per_page include_totals) st =
       [(client o,
         Request GET url
           (Some (VDict
              [ ("page", match page with Some n => VInt n | None => VNone end);
                ("per_page",
                 match per_page with Some n => VInt n | None => VNone end);
                ("include_totals",
                 VStr (if include_totals then "true" else "false")) ]))
           None)]) /\
  (exists url,
     requests_of (get_all R self default_page default_per_page
                    default_include_totals) st =
       [(client o,
         Request GET url
           (Some (VDict [ ("page", VNone); ("per_page", VNone);
                          ("include_totals", VStr "false") ]))
           None)]) /\
  (exists url,
     requests_of (get_all R self (Some 2%Z) (Some 10%Z) true) st =
       [(client o,
         Request GET url
           (Some (VDict [ ("page", VInt 2); ("per_page", VInt 10);
                          ("include_totals", VStr "true") ]))
           None)]).
Proof.
  intros H.
  assert (G : forall pg pp it,
             requests_of (get_all R self pg pp it) st =
               [(client o,
                 table_request (protocol o) (domain o) (CallGetAll pg pp it))])
    by (intros pg pp it; apply (requests_of_run_op R _ _ _ (CallGetAll pg pp it) H)).
  repeat split; eexists; rewrite G; reflexivity.
Qed.

(** C3: when the REST client raises on the request of a call, the call
    raises the same exception, with the world as the REST client left it
    and with that one request made: nothing is caught, replaced or tried
    again. *)
Theorem C3_errors_propagate st self c (cl : Client) (r : request)
    (e : Exn) (w : World) :
  requests_of (run_op R self c) st = [(cl, r)] ->
  rest_request R cl r (world st) = (Raises e, w) ->
  run_op R self c st =
    (Raised e, State (heap st) w (trace st ++ [(cl, r)])).
Proof.
  intros Hreq Hraise.
  destruct (heap st !! self) as [o|] eqn:H.
  - rewrite (requests_of_run_op _ _ _ _ _ H) in Hreq.
    injection Hreq as <- <-.
    rewrite (run_op_send _ _ _ _ _ H).
    now apply send_raises.
  - now rewrite (requests_of_dangling _ _ _ _ H) in Hreq.
Qed.

(** C4: [create(body)] is one POST to the collection URL with [body] as its
    [data], and returns what the REST client returns. *)
Theorem C4_create_posts_body st self o (body : pyval) :
  heap st !! self = Some o ->
  requests_of (create R self body) st =
    [(client o,
      Request POST
        (protocol o +:+ "://" +:+ domain o +:+ "/api/v2/resource-servers")
        None (Some body))] /\
  fst (create R self body st) =
    of_reply (fst (rest_request R (client o)
      (Request POST
         (protocol o +:+ "://" +:+ domain o +:+ "/api/v2/resource-servers")
         None (Some body))
      (world st))).
Proof.
  intros H. split.
  - apply (requests_of_run_op R _ _ _ (CallCreate body) H).
  - change (create R self body st) with (run_op R self (CallCreate body) st).
    rewrite (run_op_send _ _ _ _ _ H). apply send_result.
Qed.

(** C5: each call is exactly one call of a verb of the REST client: POST for
    [create], GET for [get_all] and [get], DELETE for [delete], PATCH for
    [update]; [update] passes its [body] as [data]; and the call returns or
    raises what the REST client returns or raises. *)
Theorem C5_one_verb_per_call st self o c :
  heap st !! self = Some o ->
  exists r,
    requests_of (run_op R self c) st = [(client o, r)] /\
    req_verb r =
      match c with
      | CallCreate _ => POST
      | CallGetAll _ _ _ => GET
      | CallGet _ => GET
      | CallDelete _ => DELETE
      | CallUpdate _ _ => PATCH
      end /\
    (forall id body, c = CallUpdate id body -> req_data r = Some body) /\
    fst (run_op R self c st) =
      of_reply (fst (rest_request R (client o) r (world st))).
Proof.
  intros H. exists (table_request (protocol o) (domain o) c).
  split; [now apply requests_of_run_op|].
  split; [now destruct c|].
  split; [now intros id body ->|].
  rewrite (run_op_send _ _ _ _ _ H). apply send_result.
Qed.

(** The tail of a URL after the collection path: nothing, or [/id]. *)
Lemma call_url_split (p d : string) c :
  call_url p d c =
    p +:+ "://" +:+ d +:+ "/api/v2/resource-servers" +:+
      match c with
      | CallCreate _ | CallGetAll _ _ _ => ""
      | CallGet id | CallDelete id | CallUpdate id _ => "/" +:+ id
      end.
Proof. now destruct c. Qed.

Lemma call_url_domain_inj (p d d' : string) c :
  call_url p d c = call_url p d' c -> d = d'.
Proof.
  rewrite !call_url_split. intros H.
  apply append_cancel_l, append_cancel_l in H.
  now apply append_cancel_r in H.
Qed.

(** C6: two instances constructed with the same arguments but for the
    protocol, ["https"] and ["http"]: for every call, at any later moment
    of either, the two requests have
    URLs ["https" ++ rest] and ["http" ++ rest] with the same [rest] (the
    separator, the domain, the collection path and the id if any), and the
    same verb, [params] and [data]. *)
Theorem C6_protocol_changes_scheme_only (d tok : string) (tel : bool)
    (to : TimeoutType) (ro : option RestClientOptions)
    stA a stA' stB b stB' :
  __init__ R d tok tel to "https" ro stA = (Ok a, stA') ->
  __init__ R d tok tel to "http" ro stB = (Ok b, stB') ->
  forall (actsA actsB : list (action TimeoutType RestClientOptions)) c,
  exists clA rA clB rB rest,
    requests_of (run_op R a c) (run_actions R actsA stA') = [(clA, rA)] /\
    requests_of (run_op R b c) (run_actions R actsB stB') = [(clB, rB)] /\
    req_url rA = "https" +:+ rest /\
    req_url rB = "http" +:+ rest /\
    rest = "://" +:+ d +:+ "/api/v2/resource-servers" +:+
             match c with
             | CallCreate _ | CallGetAll _ _ _ => ""
             | CallGet id | CallDelete id | CallUpdate id _ => "/" +:+ id
             end /\
    req_verb rA = req_verb rB /\
    req_params rA = req_params rB /\
    req_data rA = req_data rB.
Proof.
  intros HA HB actsA actsB c.
  destruct (constructed_lookup _ _ _ _ _ _ _ _ _ actsA HA) as (clA & _ & LA).
  destruct (constructed_lookup _ _ _ _ _ _ _ _ _ actsB HB) as (clB & _ & LB).
  exists clA, (table_request "https" d c), clB, (table_request "http" d c).
  eexists. split; [|split; [|split; [|split; [|split; [reflexivity|]]]]].
  - now rewrite (requests_of_run_op _ _ _ _ _ LA).
  - now rewrite (requests_of_run_op _ _ _ _ _ LB).
  - now destruct c.
  - now destruct c.
  - now destruct c.
Qed.

(** C7: two instances [a] and [b] constructed with different domains, in the
    same store, with anything done before, between and after: they are
    different objects, and every call on [a] is sent to the URL made of the
    protocol and domain [a] was constructed with and every call on [b] to
    the URL made of those of [b]; with the same protocol the two URLs of a
    call differ. *)
Theorem C7_instances_do_not_interfere
    (dA tokA : string) (telA : bool) (toA : TimeoutType) (pA : string)
    (roA : option RestClientOptions)
    (dB tokB : string) (telB : bool) (toB : TimeoutType) (pB : string)
    (roB : option RestClientOptions)
    st0 a st1 (acts1 : list (action TimeoutType RestClientOptions)) b st2 :
  dA <> dB ->
  __init__ R dA tokA telA toA pA roA st0 = (Ok a, st1) ->
  __init__ R dB tokB telB toB pB roB (run_actions R acts1 st1) = (Ok b, st2) ->
  forall (acts2 : list (action TimeoutType RestClientOptions)) c,
    a <> b /\
    exists clA rA clB rB,
      requests_of (run_op R a c) (run_actions R acts2 st2) = [(clA, rA)] /\
      req_url rA = call_url pA dA c /\
      requests_of (run_op R b c) (run_actions R acts2 st2) = [(clB, rB)] /\
      req_url rB = call_url pB dB c /\
      (pA = pB -> req_url rA <> req_url rB).
Proof.
  intros Hd HA HB acts2 c.
  destruct (constructed_lookup _ _ _ _ _ _ _ _ _ acts1 HA) as (clA & _ & HA1).
  destruct (constructed_lookup _ _ _ _ _ _ _ _ _ acts2 HB) as (clB & _ & HB2).
  pose proof (init_preserves R dB tokB telB toB pB roB _ _ _ HA1) as HA2.
  rewrite HB in HA2. simpl in HA2.
  apply (run_actions_preserves R acts2) in HA2.
  apply init_inv in HB as (_ & _ & _ & Hfresh & _).
  split; [intros ->; congruence|].
  exists clA, (table_request pA dA c), clB, (table_request pB dB c).
  rewrite (requests_of_run_op _ _ _ _ _ HA2), (requests_of_run_op _ _ _ _ _ HB2).
  rewrite !table_request_url. simpl.
  repeat split.
  intros <- E. apply Hd. now apply call_url_domain_inj in E.
Qed.

(** C8: construction sets [domain], [protocol] and [client] (the object the
    REST client's constructor returned); then no sequence of calls, on this
    or on other instances, changes the store of instances at all, and the
    instance keeps these attributes also when further instances are
    constructed. *)
Theorem C8_instance_state_is_frozen (d tok : string) (tel : bool)
    (to : TimeoutType) (p : string) (ro : option RestClientOptions)
    st0 self st1 :
  __init__ R d tok tel to p ro st0 = (Ok self, st1) ->
  exists cl,
    fst (rest_init R tok tel to ro (world st0)) = Returns cl /\
    heap st1 !! self = Some {| domain := d; protocol := p; client := cl |} /\
    (forall cs : list (loc * opcall), heap (run_calls R cs st1) = heap st1) /\
    (forall acts : list (action TimeoutType RestClientOptions),
       heap (run_actions R acts st1) !! self =
         Some {| domain := d; protocol := p; client := cl |}).
Proof.
  intros (cl & w & Hinit & _ & ->)%init_inv.
  exists cl. split; [now rewrite Hinit|].
  assert (H : heap (State (<[self := {| domain := d; protocol := p;
                                        client := cl |}]> (heap st0))
                      w (trace st0)) !! self =
              Some {| domain := d; protocol := p; client := cl |})
    by apply lookup_insert_eq.
  split; [exact H|]. split.
  - intros cs. apply run_calls_heap.
  - intros acts. now apply run_actions_preserves.
Qed.

(** C9: [get], [delete] and [update] put their [id] into the URL as it is:
    the URL is the collection URL, ["/"] and [id]; for the empty [id] it is
    the collection URL with a ["/"] at its end; and every ["/"] of [id] is a
    ["/"] of the URL, beyond those of the collection URL and the one
    separator. *)
Theorem C9_id_is_not_encoded st self o (id : string) (body : pyval) :
  heap st !! self = Some o ->
  Forall
    (fun c =>
       exists r,
         requests_of (run_op R self c) st = [(client o, r)] /\
         req_url r =
           (protocol o +:+ "://" +:+ domain o +:+ "/api/v2/resource-servers")
             +:+ "/" +:+ id /\
         (id = "" ->
          req_url r =
            (protocol o +:+ "://" +:+ domain o +:+ "/api/v2/resource-servers")
              +:+ "/") /\
         count_char "/" (req_url r) =
           count_char "/"
             (protocol o +:+ "://" +:+ domain o +:+ "/api/v2/resource-servers")
           + 1 + count_char "/" id)
    [CallGet id; CallDelete id; CallUpdate id body].
Proof.
  intros H.
  assert (G : forall c,
    req_url (table_request (protocol o) (domain o) c) =
      collection_url (protocol o) (domain o) +:+ "/" +:+ id ->
    exists r,
      requests_of (run_op R self c) st = [(client o, r)] /\
      req_url r = collection_url (protocol o) (domain o) +:+ "/" +:+ id /\
      (id = "" ->
       req_url r = collection_url (protocol o) (domain o) +:+ "/") /\
      count_char "/" (req_url r) =
        count_char "/" (collection_url (protocol o) (domain o))
        + 1 + count_char "/" id).
  { intros c E. exists (table_request (protocol o) (domain o) c).
    split; [now apply requests_of_run_op|].
    split; [exact E|]. split.
    - intros ->. exact E.
    - rewrite E, count_char_append.
      change ("/" +:+ id) with (String "/" id). simpl. lia. }
  repeat constructor; apply G; simpl; apply item_url_collection.
Qed.

End Claims.

(** ** Two runs *)

Section TwoRuns.
Context {Client Exn World TimeoutType RestClientOptions : Type}.
Variables R1 R2 : RestClient Client Exn World TimeoutType RestClientOptions.

(** C10: two runs, with REST clients that may behave differently, from
    different stores, worlds and histories: instances constructed with the
    same arguments, after anything else the callers did, called with the
    same arguments, each hand their REST client exactly one request, and
    the two requests (verb, URL, [params], [data]) are equal. *)
Theorem C10_requests_are_deterministic (d tok : string) (tel : bool)
    (to : TimeoutType) (p : string) (ro : option RestClientOptions)
    (st1 st2 : state Client World) (a1 a2 : loc)
    (st1' st2' : state Client World) :
  __init__ R1 d tok tel to p ro st1 = (Ok a1, st1') ->
  __init__ R2 d tok tel to p ro st2 = (Ok a2, st2') ->
  forall (acts1 acts2 : list (action TimeoutType RestClientOptions))
         (c : opcall),
  exists cl1 cl2 r,
    requests_of (run_op R1 a1 c) (run_actions R1 acts1 st1') = [(cl1, r)] /\
    requests_of (run_op R2 a2 c) (run_actions R2 acts2 st2') = [(cl2, r)].
Proof.
  intros H1 H2 acts1 acts2 c.
  destruct (constructed_lookup R1 _ _ _ _ _ _ _ _ _ acts1 H1) as (cl1 & _ & L1).
  destruct (constructed_lookup R2 _ _ _ _ _ _ _ _ _ acts2 H2) as (cl2 & _ & L2).
  exists cl1, cl2, (table_request p d c).
  now rewrite (requests_of_run_op _ _ _ _ _ L1), (requests_of_run_op _ _ _ _ _ L2).
Qed.

End TwoRuns.

(** ** Examples *)

Lemma C1_url_of_every_call_witness :
  __init__ mock_rest "tenant.example.com" "tok" default_telemetry tt
    default_protocol None mock_empty = (Ok 1%positive, mock_one) /\
  exists cl r,
    requests_of (run_op mock_rest 1%positive (CallGet "rs_1"))
      (run_actions mock_rest [Invoke 1%positive (CallDelete "rs_0")] mock_one)
      = [(cl, r)] /\
    req_url r = "https://tenant.example.com/api/v2/resource-servers/rs_1".
Proof.
  assert (H : __init__ mock_rest "tenant.example.com" "tok" default_telemetry
                tt default_protocol None mock_empty = (Ok 1%positive, mock_one))
    by (vm_compute; reflexivity).
  split; [exact H|].
  exact (C1_url_of_every_call mock_rest _ _ _ _ _ _ _ _ _ H
           [Invoke 1%positive (CallDelete "rs_0")] (CallGet "rs_1")).
Defined.

Lemma C2_get_all_params_witness :
  heap mock_one !! 1%positive = Some mock_instance /\
  exists url,
    requests_of (get_all mock_rest 1%positive (Some 2%Z) (Some 10%Z) true)
      mock_one =
      [("tok",
        Request GET url
          (Some (VDict [ ("page", VInt 2); ("per_page", VInt 10);
                         ("include_totals", VStr "true") ]))
          None)].
Proof.
  assert (H : heap mock_one !! 1%positive = Some mock_instance)
    by (vm_compute; reflexivity).
  split; [exact H|].
  exact (proj2 (proj2 (C2_get_all_params mock_rest mock_one 1%positive
                         mock_instance None None false H))).
Defined.

Lemma C3_errors_propagate_witness :
  requests_of (run_op mock_rest 1%positive (CallGet "missing-id")) mock_one =
    [("tok",
      Request GET
        "https://tenant.example.com/api/v2/resource-servers/missing-id"
        None None)] /\
  rest_request mock_rest "tok"
    (Request GET
       "https://tenant.example.com/api/v2/resource-servers/missing-id"
       None None)
    (world mock_one) = (Raises 404, 1) /\
  run_op mock_rest 1%positive (CallGet "missing-id") mock_one =
    (Raised 404,
     State (heap mock_one) 1
       (trace mock_one ++
        [("tok",
          Request GET
            "https://tenant.example.com/api/v2/resource-servers/missing-id"
            None None)])).
Proof.
  assert (H1 : requests_of (run_op mock_rest 1%positive (CallGet "missing-id"))
                 mock_one =
               [("tok",
                 Request GET
                   "https://tenant.example.com/api/v2/resource-servers/missing-id"
                   None None)])
    by (vm_compute; reflexivity).
  assert (H2 : rest_request mock_rest "tok"
                 (Request GET
                    "https://tenant.example.com/api/v2/resource-servers/missing-id"
                    None None)
                 (world mock_one) = (Raises 404, 1))
    by (vm_compute; reflexivity).
  split; [exact H1|]. split; [exact H2|].
  exact (C3_errors_propagate mock_rest _ _ _ _ _ _ _ H1 H2).
Defined.

Lemma C4_create_posts_body_witness :
  heap mock_one !! 1%positive = Some mock_instance /\
  requests_of (create mock_rest 1%positive (VDict [("name", VStr "api")]))
    mock_one =
    [("tok",
      Request POST "https://tenant.example.com/api/v2/resource-servers"
        None (Some (VDict [("name", VStr "api")])))] /\
  fst (create mock_rest 1%positive (VDict [("name", VStr "api")]) mock_one) =
    of_reply (fst (rest_request mock_rest "tok"
      (Request POST "https://tenant.example.com/api/v2/resource-servers"
         None (Some (VDict [("name", VStr "api")])))
      (world mock_one))).
Proof.
  assert (H : heap mock_one !! 1%positive = Some mock_instance)
    by (vm_compute; reflexivity).
  split; [exact H|].
  exact (C4_create_posts_body mock_rest mock_one 1%positive mock_instance
           (VDict [("name", VStr "api")]) H).
Defined.

Lemma C5_one_verb_per_call_witness :
  heap mock_one !! 1%positive = Some mock_instance /\
  exists r,
    requests_of
      (run_op mock_rest 1%positive (CallUpdate "rs_1" (VDict [("name", VStr "b")])))
      mock_one = [("tok", r)] /\
    req_verb r = PATCH /\
    (forall id body,
       CallUpdate "rs_1" (VDict [("name", VStr "b")]) = CallUpdate id body ->
       req_data r = Some body) /\
    fst (run_op mock_rest 1%positive
           (CallUpdate "rs_1" (VDict [("name", VStr "b")])) mock_one) =
      of_reply (fst (rest_request mock_rest "tok" r (world mock_one))).
Proof.
  assert (H : heap mock_one !! 1%positive = Some mock_instance)
    by (vm_compute; reflexivity).
  split; [exact H|].
  exact (C5_one_verb_per_call mock_rest mock_one 1%positive mock_instance
           (CallUpdate "rs_1" (VDict [("name", VStr "b")])) H).
Defined.

Lemma C6_protocol_changes_scheme_only_witness :
  __init__ mock_rest "tenant.example.com" "tok" default_telemetry tt
    "https" None mock_empty = (Ok 1%positive, mock_one) /\
  __init__ mock_rest "tenant.example.com" "tok" default_telemetry tt
    "http" None mock_one = (Ok 2%positive, mock_http) /\
  exists clA rA clB rB rest,
    requests_of (run_op mock_rest 1%positive (CallGet "rs_1"))
      (run_actions mock_rest [] mock_one) = [(clA, rA)] /\
    requests_of (run_op mock_rest 2%positive (CallGet "rs_1"))
      (run_actions mock_rest [Invoke 1%positive (CallGet "rs_0")] mock_http) =
      [(clB, rB)] /\
    req_url rA = "https" +:+ rest /\
    req_url rB = "http" +:+ rest /\
    rest = "://tenant.example.com/api/v2/resource-servers/rs_1" /\
    req_verb rA = req_verb rB /\
    req_params rA = req_params rB /\
    req_data rA = req_data rB.
Proof.
  assert (H1 : __init__ mock_rest "tenant.example.com" "tok" default_telemetry
                 tt "https" None mock_empty = (Ok 1%positive, mock_one))
    by (vm_compute; reflexivity).
  assert (H2 : __init__ mock_rest "tenant.example.com" "tok" default_telemetry
                 tt "http" None mock_one = (Ok 2%positive, mock_http))
    by (vm_compute; reflexivity).
  split; [exact H1|]. split; [exact H2|].
  exact (C6_protocol_changes_scheme_only mock_rest _ _ _ _ _ _ _ _ _ _ _
           H1 H2 [] [Invoke 1%positive (CallGet "rs_0")] (CallGet "rs_1")).
Defined.

Lemma C7_instances_do_not_interfere_witness :
  "tenant.example.com" <> "other.example.com" /\
  __init__ mock_rest "tenant.example.com" "tok" default_telemetry tt
    default_protocol None mock_empty = (Ok 1%positive, mock_one) /\
  __init__ mock_rest "other.example.com" "tok2" default_telemetry tt
    default_protocol None
    (run_actions mock_rest
       [Invoke 1%positive
          (CallGetAll default_page default_per_page default_include_totals)]
       mock_one) = (Ok 2%positive, mock_two) /\
  (1 <> 2)%positive /\
  exists clA rA clB rB,
    requests_of (run_op mock_rest 1%positive (CallDelete "rs_1"))
      (run_actions mock_rest [Invoke 2%positive (CallGet "rs_2")] mock_two) =
      [(clA, rA)] /\
    req_url rA = "https://tenant.example.com/api/v2/resource-servers/rs_1" /\
    requests_of (run_op mock_rest 2%positive (CallDelete "rs_1"))
      (run_actions mock_rest [Invoke 2%positive (CallGet "rs_2")] mock_two) =
      [(clB, rB)] /\
    req_url rB = "https://other.example.com/api/v2/resource-servers/rs_1" /\
    (default_protocol = default_protocol -> req_url rA <> req_url rB).
Proof.
  assert (H0 : "tenant.example.com" <> "other.example.com")
    by (intros E; discriminate E).
  assert (H1 : __init__ mock_rest "tenant.example.com" "tok" default_telemetry
                 tt default_protocol None mock_empty = (Ok 1%positive, mock_one))
    by (vm_compute; reflexivity).
  assert (H2 : __init__ mock_rest "other.example.com" "tok2" default_telemetry
                 tt default_protocol None
                 (run_actions mock_rest
                    [Invoke 1%positive
                       (CallGetAll default_page default_per_page
                          default_include_totals)]
                    mock_one) = (Ok 2%positive, mock_two))
    by (vm_compute; reflexivity).
  split; [exact H0|]. split; [exact H1|]. split; [exact H2|].
  exact (C7_instances_do_not_interfere mock_rest _ _ _ _ _ _ _ _ _ _ _ _
           _ _ _ _ _ _ H0 H1 H2
           [Invoke 2%positive (CallGet "rs_2")] (CallDelete "rs_1")).
Defined.

Lemma C8_instance_state_is_frozen_witness :
  __init__ mock_rest "tenant.example.com" "tok" default_telemetry tt
    default_protocol None mock_empty = (Ok 1%positive, mock_one) /\
  exists cl,
    fst (rest_init mock_rest "tok" default_telemetry tt None (world mock_empty))
      = Returns cl /\
    heap mock_one !! 1%positive =
      Some {| domain := "tenant.example.com"; protocol := "https";
              client := cl |} /\
    (forall cs : list (loc * opcall),
       heap (run_calls mock_rest cs mock_one) = heap mock_one) /\
    (forall acts : list (action unit unit),
       heap (run_actions mock_rest acts mock_one) !! 1%positive =
         Some {| domain := "tenant.example.com"; protocol := "https";
                 client := cl |}).
Proof.
  assert (H : __init__ mock_rest "tenant.example.com" "tok" default_telemetry
                tt default_protocol None mock_empty = (Ok 1%positive, mock_one))
    by (vm_compute; reflexivity).
  split; [exact H|].
  exact (C8_instance_state_is_frozen mock_rest _ _ _ _ _ _ _ _ _ H).
Defined.

Lemma C9_id_is_not_encoded_witness :
  heap mock_one !! 1%positive = Some mock_instance /\
  Forall
    (fun c =>
       exists r,
         requests_of (run_op mock_rest 1%positive c) mock_one = [("tok", r)] /\
         req_url r =
           "https://tenant.example.com/api/v2/resource-servers/a/b" /\
         ("a/b" = "" ->
          req_url r = "https://tenant.example.com/api/v2/resource-servers/") /\
         count_char "/" (req_url r) =
           count_char "/" "https://tenant.example.com/api/v2/resource-servers"
           + 1 + count_char "/" "a/b")
    [CallGet "a/b"; CallDelete "a/b"; CallUpdate "a/b" VNone].
Proof.
  assert (H : heap mock_one !! 1%positive = Some mock_instance)
    by (vm_compute; reflexivity).
  split; [exact H|].
  exact (C9_id_is_not_encoded mock_rest mock_one 1%positive mock_instance
           "a/b" VNone H).
Defined.

Lemma C10_requests_are_deterministic_witness :
  __init__ mock_rest "tenant.example.com" "tok" default_telemetry tt
    default_protocol None mock_empty = (Ok 1%positive, mock_one) /\
  __init__ mock_down "tenant.example.com" "tok" default_telemetry tt
    default_protocol None mock_one = (Ok 2%positive, mock_down_two) /\
  exists cl1 cl2 r,
    requests_of (run_op mock_rest 1%positive (CallGet "rs_1"))
      (run_actions mock_rest [] mock_one) = [(cl1, r)] /\
    requests_of (run_op mock_down 2%positive (CallGet "rs_1"))
      (run_actions mock_down [Invoke 2%positive (CallDelete "rs_9")]
         mock_down_two) = [(cl2, r)].
Proof.
  assert (H1 : __init__ mock_rest "tenant.example.com" "tok" default_telemetry
                 tt default_protocol None mock_empty = (Ok 1%positive, mock_one))
    by (vm_compute; reflexivity).
  assert (H2 : __init__ mock_down "tenant.example.com" "tok" default_telemetry
                 tt default_protocol None mock_one =
               (Ok 2%positive, mock_down_two))
    by (vm_compute; reflexivity).
  split; [exact H1|]. split; [exact H2|].
  exact (C10_requests_are_deterministic mock_rest mock_down _ _ _ _ _ _ _ _ _
           _ _ _ H1 H2 [] [Invoke 2%positive (CallDelete "rs_9")]
           (CallGet "rs_1")).
Defined.

(** ** Further properties of the class *)

Lemma py_opt_int_inj (a b : option Z) : py_opt_int a = py_opt_int b -> a = b.
Proof. destruct a, b; simpl; intros H; congruence. Qed.

Lemma totals_string_inj (a b : bool) :
  (if a then "true" else "false") = (if b then "true" else "false") -> a = b.
Proof. destruct a, b; intros H; try reflexivity; discriminate H. Qed.

Lemma item_url_inj (p d id1 id2 : string) :
  item_url p d id1 = item_url p d id2 -> id1 = id2.
Proof.
  unfold item_url. intros H.
  now apply append_cancel_l, append_cancel_l, append_cancel_l,
    append_cancel_l in H.
Qed.

Lemma append_neq_self (a b : string) (x : ascii) : a +:+ String x b <> a.
Proof.
  intros H. apply (f_equal String.length) in H.
  rewrite length_append in H. simpl in H. lia.
Qed.

(** The request of the table determines the call. *)
Lemma table_request_inj (p d : string) (c1 c2 : opcall) :
  table_request p d c1 = table_request p d c2 -> c1 = c2.
Proof.
  destruct c1 as [b1|pg1 pp1 it1|i1|i1|i1 b1],
           c2 as [b2|pg2 pp2 it2|i2|i2|i2 b2];
    simpl; intros H; try discriminate H.
  - now injection H as ->.
  - injection H as Hpg Hpp Hit.
    apply py_opt_int_inj in Hpg, Hpp. apply totals_string_inj in Hit.
    now subst.
  - injection H as H. now apply item_url_inj in H as ->.
  - injection H as H. now apply item_url_inj in H as ->.
  - injection H as H ->. now apply item_url_inj in H as ->.
Qed.

Lemma planned_requests_heap {Client World : Type}
    (st st' : state Client World) (cs : list (loc * opcall)) :
  heap st' = heap st -> planned_requests st' cs = planned_requests st cs.
Proof. intros H. unfold planned_requests. now rewrite H. Qed.

Section Further.
Context {Client Exn World TimeoutType RestClientOptions : Type}.
Variable R : RestClient Client Exn World TimeoutType RestClientOptions.

Implicit Types (st : state Client World) (o : ResourceServers Client)
  (self : loc) (c : opcall).

(** X1: construction hands no request to the REST client and does what the
    constructor of the REST client does: if that raises, construction raises
    the same exception and the store of instances is as before; if it
    returns a client, construction returns a reference that was not in the
    store, to an object with the given domain and protocol and that client,
    for every domain and protocol string. *)
Theorem X1_construction_outcome (d tok : string) (tel : bool)
    (to : TimeoutType) (p : string) (ro : option RestClientOptions) st :
  match rest_init R tok tel to ro (world st) with
  | (Returns cl, w) =>
      exists self,
        heap st !! self = None /\
        __init__ R d tok tel to p ro st =
          (Ok self,
           State (<[self := {| domain := d; protocol := p; client := cl |}]>
                    (heap st)) w (trace st))
  | (Raises e, w) =>
      __init__ R d tok tel to p ro st =
        (Raised e, State (heap st) w (trace st))
  end.
Proof.
  unfold __init__, bind, new_client, alloc.
  destruct (rest_init R tok tel to ro (world st)) as [[cl|e] w]; simpl.
  - exists (fresh (dom (heap st))). split; [|reflexivity].
    apply not_elem_of_dom, is_fresh.
  - reflexivity.
Qed.

(** X2: every call on an instance, at any later moment, is made on the REST
    client object that the constructor of the REST client returned for the
    token, telemetry, timeout and options of this instance's construction. *)
Theorem X2_calls_use_own_client (d tok : string) (tel : bool)
    (to : TimeoutType) (p : string) (ro : option RestClientOptions)
    st0 self st1 :
  __init__ R d tok tel to p ro st0 = (Ok self, st1) ->
  exists cl,
    rest_init R tok tel to ro (world st0) = (Returns cl, world st1) /\
    forall (acts : list (action TimeoutType RestClientOptions)) c,
    exists r,
      requests_of (run_op R self c) (run_actions R acts st1) = [(cl, r)].
Proof.
  intros (cl & w & Hinit & _ & ->)%init_inv.
  exists cl. split; [exact Hinit|].
  intros acts c. exists (table_request p d c).
  apply (requests_of_run_op R _ _
           {| domain := d; protocol := p; client := cl |}).
  apply run_actions_preserves. simpl. apply lookup_insert_eq.
Qed.

(** X3: the token, the telemetry flag, the timeout and the REST options of
    the construction reach no request: two instances with the same domain
    and protocol, whatever their other arguments and their histories, hand
    over equal requests for equal calls. *)
Theorem X3_requests_ignore_credentials (d p : string)
    (tok1 tok2 : string) (tel1 tel2 : bool) (to1 to2 : TimeoutType)
    (ro1 ro2 : option RestClientOptions)
    (st1 st2 : state Client World) (a1 a2 : loc)
    (st1' st2' : state Client World) :
  __init__ R d tok1 tel1 to1 p ro1 st1 = (Ok a1, st1') ->
  __init__ R d tok2 tel2 to2 p ro2 st2 = (Ok a2, st2') ->
  forall (acts1 acts2 : list (action TimeoutType RestClientOptions)) c,
  exists cl1 cl2 r,
    requests_of (run_op R a1 c) (run_actions R acts1 st1') = [(cl1, r)] /\
    requests_of (run_op R a2 c) (run_actions R acts2 st2') = [(cl2, r)].
Proof.
  intros H1 H2 acts1 acts2 c.
  destruct (constructed_lookup R _ _ _ _ _ _ _ _ _ acts1 H1) as (cl1 & _ & L1).
  destruct (constructed_lookup R _ _ _ _ _ _ _ _ _ acts2 H2) as (cl2 & _ & L2).
  exists cl1, cl2, (table_request p d c). split.
  - now rewrite (requests_of_run_op _ _ _ _ _ L1).
  - now rewrite (requests_of_run_op _ _ _ _ _ L2).
Qed.

(** X4: a sequence of calls makes the requests of its calls, in order, one
    for each call on an instance: they are fixed by the store before the
    first call and do not depend on what the REST client replied or raised
    on the way; the world is the one the REST client leaves after serving
    them in this order, and the store is unchanged. *)
Theorem X4_calls_compose (cs : list (loc * opcall)) st :
  trace (run_calls R cs st) = trace st ++ planned_requests st cs /\
  world (run_calls R cs st) = serve R (planned_requests st cs) (world st) /\
  heap (run_calls R cs st) = heap st.
Proof.
  revert st. induction cs as [|[self c] cs IH]; intros st.
  - simpl. now rewrite app_nil_r.
  - simpl run_calls.
    destruct (IH (snd (run_op R self c st))) as (IHt & IHw & IHh).
    rewrite IHt, IHw, IHh.
    rewrite (planned_requests_heap st _ cs (run_op_heap R st self c)).
    unfold planned_requests at 2 4. simpl flat_map.
    fold (planned_requests st cs).
    destruct (heap st !! self) as [o|] eqn:H.
    + rewrite (run_op_send _ _ _ _ _ H).
      rewrite send_trace, send_world, send_heap.
      split; [now rewrite <- app_assoc|]. split; reflexivity.
    + rewrite (run_op_dangling _ _ _ _ H). simpl. repeat split.
Qed.

(** X5: the URL that [_url] builds for an id tells the ids apart and is
    never the collection URL: equal URLs come from equal ids only, and the
    URL for an id, the empty one included, differs from the URL for no id. *)
Theorem X5_url_separates_ids st self o :
  heap st !! self = Some o ->
  (forall id1 id2 : string,
     fst (_url (Exn := Exn) self (Some id1) st) =
       fst (_url (Exn := Exn) self (Some id2) st) ->
     id1 = id2) /\
  (forall id : string,
     fst (_url (Exn := Exn) self (Some id) st) <>
       fst (_url (Exn := Exn) self None st)).
Proof.
  intros H. split.
  - intros id1 id2. rewrite !(_url_found _ _ _ _ H). simpl.
    intros E. injection E as E.
    now apply append_cancel_l, append_cancel_l in E.
  - intros id. rewrite !(_url_found _ _ _ _ H). simpl.
    intros E. injection E as E.
    now apply append_neq_self in E.
Qed.

(** X6: on one instance, different calls (another method, or the same method
    with another argument) hand the REST client different requests. *)
Theorem X6_request_determines_call st self o (c1 c2 : opcall) :
  heap st !! self = Some o ->
  c1 <> c2 ->
  requests_of (run_op R self c1) st <> requests_of (run_op R self c2) st.
Proof.
  intros H Hne E.
  rewrite !(requests_of_run_op _ _ _ _ _ H) in E.
  injection E as E. now apply table_request_inj in E.
Qed.

(** X7: an instance constructed with the domain and the token alone sends
    every call to an [https] URL of that domain, and its REST client is
    constructed with telemetry on, the default timeout and no options. *)
Theorem X7_defaults (default_timeout : TimeoutType) (d tok : string)
    st0 self st1 :
  new_ResourceServers R default_timeout d tok None None None None st0 =
    (Ok self, st1) ->
  exists cl,
    rest_init R tok true default_timeout None (world st0) =
      (Returns cl, world st1) /\
    forall (acts : list (action TimeoutType RestClientOptions)) c,
    exists r,
      requests_of (run_op R self c) (run_actions R acts st1) = [(cl, r)] /\
      req_url r =
        "https://" +:+ d +:+ "/api/v2/resource-servers" +:+
          match c with
          | CallCreate _ | CallGetAll _ _ _ => ""
          | CallGet id | CallDelete id | CallUpdate id _ => "/" +:+ id
          end.
Proof.
  unfold new_ResourceServers. simpl.
  intros (cl & w & Hinit & _ & ->)%init_inv.
  exists cl. split; [exact Hinit|].
  intros acts c. exists (table_request "https" d c). split.
  - apply (requests_of_run_op R _ _
             {| domain := d; protocol := "https"; client := cl |}).
    apply run_actions_preserves. simpl. apply lookup_insert_eq.
  - now destruct c.
Qed.

End Further.

Lemma X2_calls_use_own_client_witness :
  __init__ mock_rest "other.example.com" "tok2" default_telemetry tt
    default_protocol None mock_listed = (Ok 2%positive, mock_two) /\
  exists cl,
    rest_init mock_rest "tok2" default_telemetry tt None (world mock_listed) =
      (Returns cl, world mock_two) /\
    forall (acts : list (action unit unit)) (c : opcall),
    exists r,
      requests_of (run_op mock_rest 2%positive c)
        (run_actions mock_rest acts mock_two) = [(cl, r)].
Proof.
  assert (H : __init__ mock_rest "other.example.com" "tok2" default_telemetry
                tt default_protocol None mock_listed =
              (Ok 2%positive, mock_two))
    by (vm_compute; reflexivity).
  split; [exact H|].
  exact (X2_calls_use_own_client mock_rest _ _ _ _ _ _ _ _ _ H).
Defined.

Lemma X3_requests_ignore_credentials_witness :
  __init__ mock_rest "tenant.example.com" "tok" default_telemetry tt
    default_protocol None mock_empty = (Ok 1%positive, mock_one) /\
  __init__ mock_rest "tenant.example.com" "tok-b" false tt
    default_protocol None mock_one = (Ok 2%positive, mock_second_token) /\
  exists cl1 cl2 r,
    requests_of (run_op mock_rest 1%positive (CallCreate (VDict [])))
      (run_actions mock_rest [] mock_one) = [(cl1, r)] /\
    requests_of (run_op mock_rest 2%positive (CallCreate (VDict [])))
      (run_actions mock_rest [Invoke 1%positive (CallGet "rs_1")]
         mock_second_token) = [(cl2, r)].
Proof.
  assert (H1 : __init__ mock_rest "tenant.example.com" "tok" default_telemetry
                 tt default_protocol None mock_empty = (Ok 1%positive, mock_one))
    by (vm_compute; reflexivity).
  assert (H2 : __init__ mock_rest "tenant.example.com" "tok-b" false tt
                 default_protocol None mock_one =
               (Ok 2%positive, mock_second_token))
    by (vm_compute; reflexivity).
  split; [exact H1|]. split; [exact H2|].
  exact (X3_requests_ignore_credentials mock_rest _ _ _ _ _ _ _ _ _ _ _ _ _ _
           _ _ H1 H2 [] [Invoke 1%positive (CallGet "rs_1")]
           (CallCreate (VDict []))).
Defined.

Lemma X5_url_separates_ids_witness :
  heap mock_one !! 1%positive = Some mock_instance /\
  (forall id1 id2 : string,
     fst (_url (Exn := nat) 1%positive (Some id1) mock_one) =
       fst (_url (Exn := nat) 1%positive (Some id2) mock_one) ->
     id1 = id2) /\
  (forall id : string,
     fst (_url (Exn := nat) 1%positive (Some id) mock_one) <>
       fst (_url (Exn := nat) 1%positive None mock_one)).
Proof.
  assert (H : heap mock_one !! 1%positive = Some mock_instance)
    by (vm_compute; reflexivity).
  split; [exact H|].
  exact (X5_url_separates_ids mock_one 1%positive mock_instance H).
Defined.

Lemma X6_request_determines_call_witness :
  heap mock_one !! 1%positive = Some mock_instance /\
  CallGet "" <> CallGetAll None None false /\
  requests_of (run_op mock_rest 1%positive (CallGet "")) mock_one <>
    requests_of (run_op mock_rest 1%positive (CallGetAll None None false))
      mock_one.
Proof.
  assert (H : heap mock_one !! 1%positive = Some mock_instance)
    by (vm_compute; reflexivity).
  assert (Hne : CallGet "" <> CallGetAll None None false)
    by (intros E; discriminate E).
  split; [exact H|]. split; [exact Hne|].
  exact (X6_request_determines_call mock_rest mock_one 1%positive
           mock_instance _ _ H Hne).
Defined.

Lemma X7_defaults_witness :
  new_ResourceServers mock_rest tt "tenant.example.com" "tok"
    None None None None mock_empty = (Ok 1%positive, mock_one) /\
  exists cl,
    rest_init mock_rest "tok" true tt None (world mock_empty) =
      (Returns cl, world mock_one) /\
    forall (acts : list (action unit unit)) (c : opcall),
    exists r,
      requests_of (run_op mock_rest 1%positive c)
        (run_actions mock_rest acts mock_one) = [(cl, r)] /\
      req_url r =
        "https://" +:+ "tenant.example.com" +:+ "/api/v2/resource-servers" +:+
          match c with
          | CallCreate _ | CallGetAll _ _ _ => ""
          | CallGet id | CallDelete id | CallUpdate id _ => "/" +:+ id
          end.
Proof.
  assert (H : new_ResourceServers mock_rest tt "tenant.example.com" "tok"
                None None None None mock_empty = (Ok 1%positive, mock_one))
    by (vm_compute; reflexivity).
  split; [exact H|].
  exact (X7_defaults mock_rest tt _ _ _ _ _ H).
Defined.
